(** * zkLocus: the ZKExactGeoPointCircuitProof wrapper

    A shallow embedding of
    [contracts/src/api/proofs/ZKExactGeoPointCircuitProof.ts].

    The class is a thin protocol layer: almost every line of it is a call
    into a collaborator (the base class [ZKLocusProof], the o1js proof
    engine, the [ZKGeoPoint] model, the source wrapper of a derivation, the
    verification cache).  The methods are therefore embedded as programs in
    a small monad whose only effects are "call a collaborator" and "throw":
    what a method does is the sequence of calls it issues and how it reacts
    to what they answer.  A program is run against an environment that
    answers the calls; the run records every call with its answer, so
    ordering properties are statements about the recorded trace. *)

From Stdlib Require Import ZArith String.
From stdpp Require Import base option list gmap.

Local Open Scope Z_scope.

(** ** The fragment of JavaScript the class relies on *)

Module JS.

(** A thrown [Error] object; only its message is observable here. *)
Inductive Exn : Type :=
| Error (message : string).

(** Values as the operator [!] sees them.  Numbers are left out: no
    number reaches a condition in this class. *)
Inductive value : Type :=
| undefined
| null
| boolean (b : bool)
| str (s : string)
| object {A : Type} (o : A).

(** ECMAScript ToBoolean: every object is truthy. *)
Definition ToBoolean (v : value) : bool :=
  match v with
  | undefined => false
  | null => false
  | boolean b => b
  | str s => negb (String.eqb s "")
  | object _ => true
  end.

(** The prefix operator [!]. *)
Definition not (v : value) : bool := negb (ToBoolean v).

(** How a call ends: it returns a value or throws. *)
Inductive Result (X : Type) : Type :=
| Returned (x : X)
| Threw (e : Exn).
Arguments Returned {X} x.
Arguments Threw {X} e.

End JS.

Export JS (Exn, Error, Result, Returned, Threw).

(** ** The fragment of o1js the class relies on *)

Module o1js.

(** A field element, by its canonical representative. *)
Definition Field : Type := Z.

(** o1js [Bool]: an object wrapping a boolean, not a JavaScript boolean. *)
Record Bool : Type := { toBoolean : bool }.

(** [Field.equals(y): Bool], exact equality of field elements. *)
Definition Field_equals (x y : Field) : Bool :=
  {| toBoolean := Z.eqb x y |}.

End o1js.

Export o1js (Field).

(** [GeoPointCommitment] (model/public/Commitment), as far as it is read. *)
Record GeoPointCommitment : Type := { geoPointHash : Field }.

(** Types the file imports and only passes around.  The one thing it reads
    from a proof handle is its [publicOutput]. *)
Class Imports : Type := {
  ZKGeoPoint : Type;
  GeoPoint : Type;
  JsonProof : Type;
  ExactGeoPointCircuitProof : Type;
  publicOutput : ExactGeoPointCircuitProof -> GeoPointCommitment;
  GeoPointProviderCircuitProof : Type;
  ZKGeoPointProviderCircuitProof : Type
}.

Section Wrapper.

Context `{Imports}.

(** ** Data *)

(** An instance: the two fields the constructor assigns.  No method of the
    class assigns them again. *)
Record ZKExactGeoPointCircuitProof : Type := {
  proof : ExactGeoPointCircuitProof;
  claimedZKGeoPoint : ZKGeoPoint
}.

(** The three lines the mismatch branch prints, with the values it
    interpolates. *)
Inductive LogLine : Type :=
| NotTheClaimedOne (geoPointHash claimed : Field)
| TheClaimedZKGeoPoint (claimed : ZKGeoPoint)
| TheClaimedGeoPoint (claimedZK : GeoPoint).

(** ** Calls that leave the class *)

Inductive Call : Type -> Type :=
(* the base class ZKLocusProof *)
| ZKLocusProof_constructor : Call unit
| ZKLocusProof_verify (this : ZKExactGeoPointCircuitProof) : Call unit
(* the claimed model object *)
| ZKGeoPoint_hash (p : ZKGeoPoint) : Call Field
| ZKGeoPoint_toZKValue (p : ZKGeoPoint) : Call GeoPoint
| console_log (line : LogLine) : Call unit
(* the source wrapper of a derivation *)
| Provider_verify (src : ZKGeoPointProviderCircuitProof) : Call unit
| Provider_zkGeoPoint (src : ZKGeoPointProviderCircuitProof) : Call ZKGeoPoint
| Provider_zkProof (src : ZKGeoPointProviderCircuitProof)
    : Call GeoPointProviderCircuitProof
(* the circuit engine *)
| ExactGeoPointCircuit_fromGeoPointProvider (p : GeoPointProviderCircuitProof)
    : Call ExactGeoPointCircuitProof
| ExactGeoPointCircuitProof_fromJSON (jsonProof : JsonProof)
    : Call ExactGeoPointCircuitProof
(* the store of the caching middleware *)
| Cache_has (this : ZKExactGeoPointCircuitProof) : Call bool
| Cache_add (this : ZKExactGeoPointCircuitProof) : Call unit.

(** ** Programs *)

Inductive prog (R : Type) : Type :=
| Ret (r : R)
| Throw (e : Exn)
| Vis {X : Type} (c : Call X) (k : X -> prog R).
Arguments Ret {R} r.
Arguments Throw {R} e.
Arguments Vis {R X} c k.

Fixpoint bind {A B : Type} (p : prog A) (f : A -> prog B) : prog B :=
  match p with
  | Ret a => f a
  | Throw e => Throw e
  | Vis c k => Vis c (fun x => bind (k x) f)
  end.

#[export] Instance prog_ret : MRet prog := @Ret.
#[export] Instance prog_bind : MBind prog := fun A B f p => bind p f.

Definition call {X : Type} (c : Call X) : prog X := Vis c Ret.

(** ** Running a program *)

(** An environment answers each call, possibly changing its own state. *)
Definition Env (St : Type) : Type :=
  forall X : Type, Call X -> St -> Result X * St.

(** A call together with its answer. *)
Inductive Logged : Type :=
| Log {X : Type} (c : Call X) (answer : Result X).

Record Outcome (St R : Type) : Type := {
  result : Result R;
  final : St;
  trace : list Logged
}.
Arguments result {St R} o.
Arguments final {St R} o.
Arguments trace {St R} o.

(** An exception thrown by a callee is not caught anywhere in the class:
    it ends the run. *)
Fixpoint run {St R : Type} (env : Env St) (p : prog R) (st : St)
  : Outcome St R :=
  match p with
  | Ret r => {| result := Returned r; final := st; trace := [] |}
  | Throw e => {| result := Threw e; final := st; trace := [] |}
  | Vis c k =>
      let '(answer, st1) := env _ c st in
      match answer with
      | Threw e =>
          {| result := Threw e; final := st1; trace := [Log c (Threw e)] |}
      | Returned x =>
          let o := run env (k x) st1 in
          {| result := result o; final := final o;
             trace := Log c (Returned x) :: trace o |}
      end
  end.

(** ** The class *)

(** [constructor(zkGeoPoint, proof)] *)
Definition constructor (zkGeoPoint : ZKGeoPoint)
    (proof : ExactGeoPointCircuitProof) : prog ZKExactGeoPointCircuitProof :=
  call ZKLocusProof_constructor;;
  mret {| proof := proof; claimedZKGeoPoint := zkGeoPoint |}.

(** [static async fromZKGeoPointProviderProof(proof)].  The promise is
    taken by its settlement: fulfilled is [Returned], rejected is [Threw]. *)
Definition fromZKGeoPointProviderProof (proof : ZKGeoPointProviderCircuitProof)
  : prog ZKExactGeoPointCircuitProof :=
  call (Provider_verify proof);;
  zkGeoPoint ← call (Provider_zkGeoPoint proof);
  geoPointProviderProof ← call (Provider_zkProof proof);
  exactGeoPointProof ←
    call (ExactGeoPointCircuit_fromGeoPointProvider geoPointProviderProof);
  constructor zkGeoPoint exactGeoPointProof.

(** [static fromJSON(jsonProof)] *)
Definition fromJSON (jsonProof : JsonProof) : prog ExactGeoPointCircuitProof :=
  call (ExactGeoPointCircuitProof_fromJSON jsonProof).

(** The condition of the [if] in [assertGeoPointIsTheClaimedOne]: [!]
    applied to the [Bool] that [equals] returns. *)
Definition mismatch_guard (geoPointHash claimedGeoPointCommitment : Field)
  : bool :=
  JS.not (JS.object (o1js.Field_equals geoPointHash claimedGeoPointCommitment)).

(** [protected assertGeoPointIsTheClaimedOne()] *)
Definition assertGeoPointIsTheClaimedOne (this : ZKExactGeoPointCircuitProof)
  : prog unit :=
  let geoPointCommitment := publicOutput (proof this) in
  claimedGeoPointCommitment ← call (ZKGeoPoint_hash (claimedZKGeoPoint this));
  if mismatch_guard (geoPointHash geoPointCommitment) claimedGeoPointCommitment
  then
    call (console_log (NotTheClaimedOne (geoPointHash geoPointCommitment)
                         claimedGeoPointCommitment));;
    let claimed := claimedZKGeoPoint this in
    call (console_log (TheClaimedZKGeoPoint claimed));;
    claimedZK ← call (ZKGeoPoint_toZKValue claimed);
    call (console_log (TheClaimedGeoPoint claimedZK));;
    Throw (Error "The GeoPoint is not the claimed one")
  else mret tt.

(** [verify()], the method as the class body defines it. *)
Definition verify (this : ZKExactGeoPointCircuitProof) : prog unit :=
  call (ZKLocusProof_verify this);;
  assertGeoPointIsTheClaimedOne this.

(** Modelled from the spec: the decorator [CachingProofVerificationMiddleware]
    (middleware/CachingProofVerificationMiddleware.ts is not part of the
    sources at hand).  Section 4.4: if a prior successful verification exists
    for the instance's key, return at once without running the underlying
    chain; otherwise run the full chain and, only on success, store the
    success marker. *)
Definition CachingProofVerificationMiddleware
    (verify : ZKExactGeoPointCircuitProof -> prog unit)
    (this : ZKExactGeoPointCircuitProof) : prog unit :=
  cached ← call (Cache_has this);
  if cached : bool then mret tt
  else (verify this;; call (Cache_add this)).

(** [this.verify()] on an instance of the decorated class. *)
Definition this_verify : ZKExactGeoPointCircuitProof -> prog unit :=
  CachingProofVerificationMiddleware verify.

(** [get zkGeoPoint()] *)
Definition zkGeoPoint (this : ZKExactGeoPointCircuitProof) : prog ZKGeoPoint :=
  this_verify this;;
  mret (claimedZKGeoPoint this).

(** ** The collaborators, as the spec describes them *)

(** Modelled from the spec: what the calls answer.  None of the callees is
    part of the sources at hand; section 6 gives their interfaces.  The
    engine's check, the commitment scheme and the transformations are
    deterministic functions of their argument ("with no state change
    between calls"); the only state is the verification cache, a set of
    keys of instances (section 3: the key is the instance's identity or a
    fingerprint of its proof handle, and only successes are stored). *)
Record Collaborators : Type := {
  engine_verify : ExactGeoPointCircuitProof -> Result unit;
  hash : ZKGeoPoint -> Field;
  toZKValue : ZKGeoPoint -> GeoPoint;
  provider_verify : ZKGeoPointProviderCircuitProof -> Result unit;
  provider_zkGeoPoint : ZKGeoPointProviderCircuitProof -> Result ZKGeoPoint;
  provider_zkProof :
    ZKGeoPointProviderCircuitProof -> Result GeoPointProviderCircuitProof;
  fromGeoPointProvider :
    GeoPointProviderCircuitProof -> Result ExactGeoPointCircuitProof;
  proofFromJSON : JsonProof -> Result ExactGeoPointCircuitProof;
  cacheKey : ZKExactGeoPointCircuitProof -> positive
}.

(** Modelled from the spec: the environment built from the collaborators.
    [ZKLocusProof.verify] "delegates to the opaque handle's cryptographic
    verification" (section 4.1). *)
Definition world (C : Collaborators) : Env (gset positive) :=
  fun X c =>
    match c in Call X return gset positive -> Result X * gset positive with
    | ZKLocusProof_constructor => fun st => (Returned tt, st)
    | ZKLocusProof_verify this => fun st => (engine_verify C (proof this), st)
    | ZKGeoPoint_hash p => fun st => (Returned (hash C p), st)
    | ZKGeoPoint_toZKValue p => fun st => (Returned (toZKValue C p), st)
    | console_log _ => fun st => (Returned tt, st)
    | Provider_verify src => fun st => (provider_verify C src, st)
    | Provider_zkGeoPoint src => fun st => (provider_zkGeoPoint C src, st)
    | Provider_zkProof src => fun st => (provider_zkProof C src, st)
    | ExactGeoPointCircuit_fromGeoPointProvider p =>
        fun st => (fromGeoPointProvider C p, st)
    | ExactGeoPointCircuitProof_fromJSON jsonProof =>
        fun st => (proofFromJSON C jsonProof, st)
    | Cache_has this =>
        fun st => (Returned (bool_decide (cacheKey C this ∈ st)), st)
    | Cache_add this => fun st => (Returned tt, {[cacheKey C this]} ∪ st)
    end.

(** ** Reading traces *)

(** Calls that belong to the verification of an instance of this class:
    the engine's check, the recomputation of the commitment, the cache. *)
Definition is_verification (l : Logged) : bool :=
  match l with
  | Log (ZKLocusProof_verify _) _ => true
  | Log (ZKGeoPoint_hash _) _ => true
  | Log (Cache_has _) _ => true
  | Log (Cache_add _) _ => true
  | _ => false
  end.

(** The engine's cryptographic check. *)
Definition is_engine_check (l : Logged) : bool :=
  match l with
  | Log (ZKLocusProof_verify _) _ => true
  | _ => false
  end.


(** The engine's circuit-to-circuit transformation. *)
Definition is_transformation (l : Logged) : bool :=
  match l with
  | Log (ExactGeoPointCircuit_fromGeoPointProvider _) _ => true
  | _ => false
  end.

(** The construction of the base-class part of an instance: [super()]. *)
Definition is_construction (l : Logged) : bool :=
  match l with
  | Log ZKLocusProof_constructor _ => true
  | _ => false
  end.

(** ** Programs that raise nothing of their own *)

(** No path of the program, whatever the callees answer, reaches a [throw]
    of the program itself. *)
Inductive never_throws {R : Type} : prog R -> Prop :=
| never_throws_Ret (r : R) : never_throws (Ret r)
| never_throws_Vis {X : Type} (c : Call X) (k : X -> prog R) :
    (forall x, never_throws (k x)) -> never_throws (Vis c k).

End Wrapper.

Arguments Ret {_ R} r.
Arguments Throw {_ R} e.
Arguments Vis {_ R X} c k.
Arguments Log {_ X} c answer.
Arguments result {_ St R} o.
Arguments final {_ St R} o.
Arguments trace {_ St R} o.

(** ** A test double *)

Module Double.

(** Points are (latitude, longitude) in degrees.  A proof handle is the
    commitment it embeds and the verdict the engine gives on it. *)
Definition imports : Imports := {|
  ZKGeoPoint := Z * Z;
  GeoPoint := Z * Z;
  JsonProof := string;
  ExactGeoPointCircuitProof := Z * bool;
  publicOutput := fun p => {| geoPointHash := fst p |};
  GeoPointProviderCircuitProof := Z * bool;
  ZKGeoPointProviderCircuitProof := (Z * Z) * (Z * bool)
|}.

Definition commit (p : Z * Z) : Field := 360 * (fst p + 90) + (snd p + 180).

Definition check (valid : bool) : Result unit :=
  if valid then Returned tt else Threw (Error "invalid proof").

Definition accepted_claim (src : (Z * Z) * (Z * bool)) : Result (Z * Z) :=
  match check (snd (snd src)) with
  | Returned _ => Returned (fst src)
  | Threw e => Threw e
  end.

Definition collaborators : @Collaborators imports :=
  @Build_Collaborators imports
    (* engine_verify *) (fun p : Z * bool => check (snd p))
    (* hash *) commit
    (* toZKValue *) (fun p : Z * Z => p)
    (* provider_verify *) (fun src : (Z * Z) * (Z * bool) => check (snd (snd src)))
    (* provider_zkGeoPoint *) accepted_claim
    (* provider_zkProof *) (fun src : (Z * Z) * (Z * bool) => Returned (snd src))
    (* fromGeoPointProvider *) (fun p : Z * bool => Returned p)
    (* proofFromJSON *) (fun _ : string => Returned (0, false))
    (* cacheKey *) (fun this =>
       encode ((@proof imports this : Z * bool),
               (@claimedZKGeoPoint imports this : Z * Z))).

(** The scenario of section 8 of the spec: a proof of the point
    (40, -74), once with that claim and once with the claim (41, -74). *)
Definition proof_of_40_74 : Z * bool := (commit (40, -74), true).

Definition honest : @ZKExactGeoPointCircuitProof imports :=
  {| proof := proof_of_40_74 : @ExactGeoPointCircuitProof imports;
     claimedZKGeoPoint := (40, -74) : @ZKGeoPoint imports |}.

Definition forged : @ZKExactGeoPointCircuitProof imports :=
  {| proof := proof_of_40_74 : @ExactGeoPointCircuitProof imports;
     claimedZKGeoPoint := (41, -74) : @ZKGeoPoint imports |}.

(** A handle the engine rejects. *)
Definition rejected : @ZKExactGeoPointCircuitProof imports :=
  {| proof := (commit (40, -74), false) : @ExactGeoPointCircuitProof imports;
     claimedZKGeoPoint := (40, -74) : @ZKGeoPoint imports |}.

Definition good_source : @ZKGeoPointProviderCircuitProof imports :=
  ((40, -74), (commit (40, -74), true)).

Definition bad_source : @ZKGeoPointProviderCircuitProof imports :=
  ((40, -74), (commit (40, -74), false)).

End Double.

(** * Properties *)

Section Runs.

Context `{Imports} {St : Type} (env : Env St).

(** Running [p] and then [f]: the calls of [p], then those of [f] unless
    [p] threw. *)
Lemma run_bind {A B : Type} (p : prog A) (f : A -> prog B) (st : St) :
  run env (p ≫= f) st =
    let o := run env p st in
    match result o with
    | Returned a =>
        let o' := run env (f a) (final o) in
        {| result := result o'; final := final o';
           trace := trace o ++ trace o' |}
    | Threw e => {| result := Threw e; final := final o; trace := trace o |}
    end.
Proof.
  revert st. induction p as [a | e | X c k IH]; intros st.
  - cbn. by destruct (run env (f a) st).
  - reflexivity.
  - change (Vis c k ≫= f) with (Vis c (fun x => k x ≫= f)). cbn [run].
    destruct (env X c st) as [[x | e] st1]; [| reflexivity].
    rewrite IH. cbn. by destruct (result (run env (k x) st1)).
Qed.

Lemma run_call {X : Type} (c : Call X) (st : St) :
  run env (call c) st =
    {| result := (env X c st).1; final := (env X c st).2;
       trace := [Log c (env X c st).1] |}.
Proof.
  unfold call. cbn. by destruct (env X c st) as [[x | e] st1].
Qed.

(** Running [p] and then returning [x]: the run of [p], with [x] for its
    value when it returns. *)
Lemma run_then_return {A B : Type} (p : prog A) (x : B) (st : St) :
  run env (p;; mret x) st =
    let o := run env p st in
    {| result := match result o with
                 | Returned _ => Returned x
                 | Threw e => Threw e
                 end;
       final := final o;
       trace := trace o |}.
Proof.
  rewrite run_bind. cbv zeta.
  destruct (run env p st) as [[a | e] st1 tr];
    cbn [result final trace run mret prog_ret]; [| reflexivity].
  by rewrite app_nil_r.
Qed.

(** A program that raises nothing of its own ends in an exception only
    when its last call threw it. *)
Lemma never_throws_run {R : Type} (p : prog R) (st : St) (e : Exn) :
  never_throws p ->
  result (run env p st) = Threw e ->
  exists (X : Type) (c : Call X),
    last (trace (run env p st)) = Some (Log c (Threw e)).
Proof.
  intros Hp. revert st.
  induction Hp as [r | X c k _ IH]; intros st; cbn; [done |].
  destruct (env X c st) as [[x | e'] st1]; cbn.
  - intros Hr. destruct (IH x st1 Hr) as (Y & c' & Hlast).
    exists Y, c'. by rewrite last_cons, Hlast.
  - intros [= ->]. by exists X, c.
Qed.

End Runs.

(** ** The class against any environment *)

Section AnyEnvironment.

Context `{Imports} {St : Type} (env : Env St).

(** Destructs the answer to the next call of the run in the goal. *)
Ltac answer :=
  match goal with
  | |- context [env ?X ?c ?st] =>
      let E := fresh "E" in
      destruct (env X c st) as [[? | ?] ?] eqn:E; cbn in *
  end.

(** The guard of the mismatch branch is false whatever the two
    commitments are: [!] sees an object. *)
Lemma mismatch_guard_false (embedded recomputed : Field) :
  mismatch_guard embedded recomputed = false.
Proof. reflexivity. Qed.

(** The claim-binding check issues one call, the recomputation of the
    commitment, and ends as that call ends. *)
Lemma run_assertGeoPointIsTheClaimedOne this st :
  run env (assertGeoPointIsTheClaimedOne this) st =
    let a := env _ (ZKGeoPoint_hash (claimedZKGeoPoint this)) st in
    {| result := match a.1 with Returned _ => Returned tt | Threw e => Threw e end;
       final := a.2;
       trace := [Log (ZKGeoPoint_hash (claimedZKGeoPoint this)) a.1] |}.
Proof.
  unfold assertGeoPointIsTheClaimedOne. cbn. by answer.
Qed.

(** So [verify()] returns as soon as the inherited check and [hash()]
    return, whatever commitment the proof embeds and whatever [hash()]
    answers. *)
Lemma verify_blind_to_commitment this st x st1 recomputed st2 :
  env _ (ZKLocusProof_verify this) st = (Returned x, st1) ->
  env _ (ZKGeoPoint_hash (claimedZKGeoPoint this)) st1
    = (Returned recomputed, st2) ->
  result (run env (verify this) st) = Returned tt.
Proof.
  intros Echeck Ehash. unfold verify. rewrite run_bind, run_call, Echeck.
  cbn [result final fst snd]. rewrite run_assertGeoPointIsTheClaimedOne, Ehash.
  reflexivity.
Qed.

(** C1.  Reading [zkGeoPoint] runs [this.verify()] first: the read issues
    exactly the calls of [verify()], returns the claimed point when
    [verify()] returns, and throws what [verify()] throws when it throws. *)
Theorem zkGeoPoint_verifies_before_returning this st :
  let v := run env (this_verify this) st in
  run env (zkGeoPoint this) st =
    {| result := match result v with
                 | Returned _ => Returned (claimedZKGeoPoint this)
                 | Threw e => Threw e
                 end;
       final := final v;
       trace := trace v |}.
Proof.
  unfold zkGeoPoint. apply run_then_return.
Qed.

(** C4.  The derivation calls [verify()] of the source wrapper first; when
    that call throws, the derivation throws the same exception and has made
    no other call, so the transformation was never invoked. *)
Theorem fromZKGeoPointProviderProof_verifies_source_first src st :
  let o := run env (fromZKGeoPointProviderProof src) st in
  let checked := env _ (Provider_verify src) st in
  (exists rest, trace o = Log (Provider_verify src) checked.1 :: rest) /\
  (forall e, checked.1 = Threw e ->
     o = {| result := Threw e; final := checked.2;
            trace := [Log (Provider_verify src) (Threw e)] |} /\
     existsb is_transformation (trace o) = false).
Proof.
  unfold fromZKGeoPointProviderProof. cbn.
  destruct (env _ (Provider_verify src) st) as [[[] | e] st1]; cbn.
  - split; [eauto | done].
  - split; [eauto |]. by intros ? [= <-].
Qed.

(** C5.  When the derivation returns a wrapper, its claimed point is the
    one the source wrapper's accessor returned, its proof handle is the one
    the transformation returned, and the five calls made are those of the
    source wrapper, the transformation and the base constructor: nothing of
    the verification of the new wrapper has run. *)
Theorem fromZKGeoPointProviderProof_returns_unverified_wrapper src st this' :
  let o := run env (fromZKGeoPointProviderProof src) st in
  result o = Returned this' ->
  (exists geoPointProviderProof,
     trace o =
       [Log (Provider_verify src) (Returned tt);
        Log (Provider_zkGeoPoint src) (Returned (claimedZKGeoPoint this'));
        Log (Provider_zkProof src) (Returned geoPointProviderProof);
        Log (ExactGeoPointCircuit_fromGeoPointProvider geoPointProviderProof)
          (Returned (proof this'));
        Log ZKLocusProof_constructor (Returned tt)]) /\
  existsb is_verification (trace o) = false.
Proof.
  unfold fromZKGeoPointProviderProof, constructor. cbn.
  repeat (answer; try discriminate).
  intros [= <-]. cbn. repeat match goal with u : unit |- _ => destruct u end.
  eauto.
Qed.


(** C9.  [fromJSON] makes one call, the engine's own [fromJSON], and ends
    as that call ends: no engine check, no recomputation of a commitment,
    no cache access. *)
Theorem fromJSON_does_not_verify jsonProof st :
  let o := run env (fromJSON jsonProof) st in
  let parsed := env _ (ExactGeoPointCircuitProof_fromJSON jsonProof) st in
  o = {| result := parsed.1; final := parsed.2;
         trace := [Log (ExactGeoPointCircuitProof_fromJSON jsonProof) parsed.1] |}
  /\ existsb is_verification (trace o) = false.
Proof.
  unfold fromJSON. rewrite run_call. done.
Qed.

(** C10.  The claim-binding check never throws: for any embedded and any
    recomputed commitment the guard of its mismatch branch is false, and
    once [hash()] has returned the check returns. *)
Theorem assertGeoPointIsTheClaimedOne_never_throws this st recomputed st1 :
  env _ (ZKGeoPoint_hash (claimedZKGeoPoint this)) st
    = (Returned recomputed, st1) ->
  (forall embedded : Field, mismatch_guard embedded recomputed = false) /\
  run env (assertGeoPointIsTheClaimedOne this) st =
    {| result := Returned tt; final := st1;
       trace := [Log (ZKGeoPoint_hash (claimedZKGeoPoint this))
                   (Returned recomputed)] |}.
Proof.
  intros E. split; [done |].
  rewrite run_assertGeoPointIsTheClaimedOne, E. done.
Qed.

(** ** Further properties of the class *)

Lemma never_throws_fromZKGeoPointProviderProof src :
  never_throws (fromZKGeoPointProviderProof src).
Proof.
  unfold fromZKGeoPointProviderProof. cbn. repeat (constructor; intros).
Qed.

(** X1.  [verify()] raises nothing of its own: when it ends in an
    exception, either the inherited [verify()] threw it and nothing else was
    called, or [hash()] threw it.  The error "The GeoPoint is not the
    claimed one" of the class never comes out of it. *)
Theorem verify_rethrows this st e :
  let o := run env (verify this) st in
  result o = Threw e ->
  trace o = [Log (ZKLocusProof_verify this) (Threw e)] \/
  exists x,
    trace o = [Log (ZKLocusProof_verify this) (Returned x);
               Log (ZKGeoPoint_hash (claimedZKGeoPoint this)) (Threw e)].
Proof.
  unfold verify. cbn.
  repeat (answer; try discriminate); intros [= <-]; eauto.
Qed.

(** X2.  [verify()] is blind to the commitments: as soon as the inherited
    [verify()] and [hash()] return, it returns, whatever the proof embeds
    and whatever [hash()] answered. *)
Theorem verify_returns_whatever_the_commitments this st x st1 recomputed st2 :
  env _ (ZKLocusProof_verify this) st = (Returned x, st1) ->
  env _ (ZKGeoPoint_hash (claimedZKGeoPoint this)) st1
    = (Returned recomputed, st2) ->
  run env (verify this) st =
    {| result := Returned tt; final := st2;
       trace := [Log (ZKLocusProof_verify this) (Returned x);
                 Log (ZKGeoPoint_hash (claimedZKGeoPoint this))
                   (Returned recomputed)] |}.
Proof.
  intros Echeck Ehash. unfold verify. rewrite run_bind, run_call, Echeck.
  cbn [result final trace fst snd]. rewrite run_assertGeoPointIsTheClaimedOne.
  rewrite Ehash. reflexivity.
Qed.

(** X3.  When the derivation invokes the transformation, the three calls on
    the source wrapper have returned before, in the order [verify()],
    [zkGeoPoint], [zkProof]; the handle transformed is the one [zkProof]
    returned, and the transformation is invoked once. *)
Theorem fromZKGeoPointProviderProof_transforms_source_handle src st :
  let o := run env (fromZKGeoPointProviderProof src) st in
  existsb is_transformation (trace o) = true ->
  exists zkGeoPoint0 geoPointProviderProof transformed rest,
    trace o =
      Log (Provider_verify src) (Returned tt)
      :: Log (Provider_zkGeoPoint src) (Returned zkGeoPoint0)
      :: Log (Provider_zkProof src) (Returned geoPointProviderProof)
      :: Log (ExactGeoPointCircuit_fromGeoPointProvider geoPointProviderProof)
           transformed
      :: rest /\
    existsb is_transformation rest = false.
Proof.
  unfold fromZKGeoPointProviderProof, constructor. cbn.
  repeat (answer; try discriminate); intros _;
    repeat match goal with u : unit |- _ => destruct u end;
    do 4 eexists; (split; [reflexivity | reflexivity]).
Qed.

(** X4.  The derivation builds a wrapper only from a handle the
    transformation returned: when [super()] is called, it is the fifth and
    last call, the four before have returned, and the derivation ends as
    [super()] ends, with the wrapper of the source's point and the
    transformed handle when it returns. *)
Theorem fromZKGeoPointProviderProof_constructs_last src st :
  let o := run env (fromZKGeoPointProviderProof src) st in
  existsb is_construction (trace o) = true ->
  exists zkGeoPoint0 geoPointProviderProof exactGeoPointProof built,
    trace o =
      [Log (Provider_verify src) (Returned tt);
       Log (Provider_zkGeoPoint src) (Returned zkGeoPoint0);
       Log (Provider_zkProof src) (Returned geoPointProviderProof);
       Log (ExactGeoPointCircuit_fromGeoPointProvider geoPointProviderProof)
         (Returned exactGeoPointProof);
       Log ZKLocusProof_constructor built] /\
    result o =
      match built with
      | Returned _ =>
          Returned {| proof := exactGeoPointProof;
                      claimedZKGeoPoint := zkGeoPoint0 |}
      | Threw e => Threw e
      end.
Proof.
  unfold fromZKGeoPointProviderProof, constructor. cbn.
  repeat (answer; try discriminate); intros _;
    repeat match goal with u : unit |- _ => destruct u end;
    do 4 eexists; (split; [reflexivity | reflexivity]).
Qed.

(** X5.  The derivation raises nothing of its own and replaces no
    exception: when it ends in an exception, the last call it made threw
    it, and no wrapper was returned by [super()]. *)
Theorem fromZKGeoPointProviderProof_rethrows src st e :
  let o := run env (fromZKGeoPointProviderProof src) st in
  result o = Threw e ->
  (exists (X : Type) (c : Call X), last (trace o) = Some (Log c (Threw e))) /\
  Forall (fun l => is_construction l = true ->
                   l = Log ZKLocusProof_constructor (Threw e)) (trace o).
Proof.
  intros o Hr. split.
  - by apply never_throws_run, Hr; apply never_throws_fromZKGeoPointProviderProof.
  - revert Hr. subst o. unfold fromZKGeoPointProviderProof, constructor. cbn.
    repeat (answer; try discriminate); intros [= <-];
      repeat (constructor; try done).
Qed.

(** X6.  Whether it succeeds or fails, the derivation makes no call of the
    verification chain of this class (inherited check, [hash()], cache) and
    at most five calls in all. *)
Theorem fromZKGeoPointProviderProof_never_verifies src st :
  let o := run env (fromZKGeoPointProviderProof src) st in
  existsb is_verification (trace o) = false /\
  existsb is_engine_check (trace o) = false /\
  (length (trace o) <= 5)%nat.
Proof.
  unfold fromZKGeoPointProviderProof, constructor. cbn.
  repeat (answer; try done); cbn; repeat split; lia.
Qed.

(** X7.  A read through a freshly constructed wrapper can return nothing
    but the point given to the constructor, and it goes through
    [this.verify()] of the instance built from the two arguments. *)
Theorem constructor_then_zkGeoPoint zkGeoPoint0 proof0 st x :
  let this := {| proof := proof0; claimedZKGeoPoint := zkGeoPoint0 |} in
  let o := run env (constructor zkGeoPoint0 proof0 ≫= zkGeoPoint) st in
  result o = Returned x ->
  x = zkGeoPoint0 /\
  exists st1,
    env _ ZKLocusProof_constructor st = (Returned tt, st1) /\
    result (run env (this_verify this) st1) = Returned tt /\
    trace o = Log ZKLocusProof_constructor (Returned tt)
              :: trace (run env (this_verify this) st1).
Proof.
  intros this o. subst o. rewrite run_bind. unfold constructor.
  cbn -[zkGeoPoint this_verify].
  destruct (env _ ZKLocusProof_constructor st) as [[[] | e] st1];
    cbn -[zkGeoPoint this_verify]; [| done].
  fold this. unfold zkGeoPoint. rewrite run_then_return. cbn [result trace].
  destruct (result (run env (this_verify this) st1)) as [[] | e] eqn:Ev;
    [| done].
  intros [= <-]. split; [done |]. exists st1. by rewrite Ev.
Qed.

(** X8.  End to end: the point read from a wrapper right after its
    derivation is the point the source wrapper's accessor returned during
    the derivation. *)
Theorem derived_wrapper_reads_source_claim src st x :
  let o := run env (fromZKGeoPointProviderProof src ≫= zkGeoPoint) st in
  result o = Returned x ->
  exists rest,
    trace o = Log (Provider_verify src) (Returned tt)
              :: Log (Provider_zkGeoPoint src) (Returned x)
              :: rest.
Proof.
  unfold fromZKGeoPointProviderProof, constructor, zkGeoPoint, this_verify,
    CachingProofVerificationMiddleware, verify. cbn.
  repeat (first [ answer
                | match goal with
                  | |- context [if ?b then _ else _] => destruct b; cbn in *
                  end ];
          try discriminate).
  all: repeat match goal with u : unit |- _ => destruct u end.
  all: intros [= <-]; eauto.
Qed.

End AnyEnvironment.

(** ** The class among its collaborators *)

Section AmongCollaborators.

Context `{Imports} (C : Collaborators).

(** What [verify()] does: the engine's verdict decides alone. *)
Lemma run_verify this st :
  run (world C) (verify this) st =
    match engine_verify C (proof this) with
    | Returned x =>
        {| result := Returned tt; final := st;
           trace := [Log (ZKLocusProof_verify this) (Returned x);
                     Log (ZKGeoPoint_hash (claimedZKGeoPoint this))
                       (Returned (hash C (claimedZKGeoPoint this)))] |}
    | Threw e =>
        {| result := Threw e; final := st;
           trace := [Log (ZKLocusProof_verify this) (Threw e)] |}
    end.
Proof.
  unfold verify. cbn. by destruct (engine_verify C (proof this)).
Qed.

(** A hit: the cache answers, nothing else is called. *)
Lemma run_this_verify_hit this st :
  cacheKey C this ∈ st ->
  run (world C) (this_verify this) st =
    {| result := Returned tt; final := st;
       trace := [Log (Cache_has this) (Returned true)] |}.
Proof.
  intros Hin. unfold this_verify, CachingProofVerificationMiddleware. cbn.
  by rewrite bool_decide_eq_true_2.
Qed.

(** A miss: the chain runs, and its success is stored. *)
Lemma run_this_verify_miss this st :
  cacheKey C this ∉ st ->
  run (world C) (this_verify this) st =
    match engine_verify C (proof this) with
    | Returned x =>
        {| result := Returned tt; final := {[cacheKey C this]} ∪ st;
           trace := [Log (Cache_has this) (Returned false);
                     Log (ZKLocusProof_verify this) (Returned x);
                     Log (ZKGeoPoint_hash (claimedZKGeoPoint this))
                       (Returned (hash C (claimedZKGeoPoint this)));
                     Log (Cache_add this) (Returned tt)] |}
    | Threw e =>
        {| result := Threw e; final := st;
           trace := [Log (Cache_has this) (Returned false);
                     Log (ZKLocusProof_verify this) (Threw e)] |}
    end.
Proof.
  intros Hout. unfold this_verify, CachingProofVerificationMiddleware. cbn.
  rewrite bool_decide_eq_false_2 by done. cbn.
  by destruct (engine_verify C (proof this)).
Qed.

(** After [verify()] has returned, the instance's key is in the cache. *)
Lemma this_verify_stores_success this st :
  result (run (world C) (this_verify this) st) = Returned tt ->
  cacheKey C this ∈ final (run (world C) (this_verify this) st).
Proof.
  destruct (decide (cacheKey C this ∈ st)) as [Hin | Hout].
  - by rewrite run_this_verify_hit.
  - rewrite run_this_verify_miss by done.
    destruct (engine_verify C (proof this)); cbn; [set_solver | done].
Qed.

(** No call removes a key from the cache. *)
Lemma world_keeps_cache {X : Type} (c : Call X) (st : gset positive) :
  st ⊆ (world C X c st).2.
Proof. destruct c; cbn; set_solver. Qed.

(** So no program does. *)
Lemma run_keeps_cache {R : Type} (q : prog R) (st : gset positive) :
  st ⊆ final (run (world C) q st).
Proof.
  revert st. induction q as [r | e | X c k IH]; intros st; cbn; [done | done |].
  pose proof (world_keeps_cache c st) as Hc.
  destruct (world C X c st) as [[x | e] st1]; cbn in *; [| done].
  etrans; [exact Hc | apply IH].
Qed.

(** With an accepting engine [verify()] returns, whatever the claim is. *)
Lemma this_verify_returns this st :
  engine_verify C (proof this) = Returned tt ->
  result (run (world C) (this_verify this) st) = Returned tt.
Proof.
  intros Hengine. destruct (decide (cacheKey C this ∈ st)) as [Hin | Hout].
  - by rewrite run_this_verify_hit.
  - rewrite run_this_verify_miss by done. by rewrite Hengine.
Qed.

(** C3.  When the engine accepts the proof and the commitment in its public
    output is the hash of the claimed point, [verify()] returns and the
    accessor returns the claimed point: on any instance holding the pair,
    and so on the one the constructor builds from it. *)
Theorem verify_accepts_bound_claim zkGeoPoint0 proof0 st :
  let this := {| proof := proof0; claimedZKGeoPoint := zkGeoPoint0 |} in
  engine_verify C proof0 = Returned tt ->
  geoPointHash (publicOutput proof0) = hash C zkGeoPoint0 ->
  result (run (world C) (verify this) st) = Returned tt /\
  result (run (world C) (this_verify this) st) = Returned tt /\
  result (run (world C) (zkGeoPoint this) st) = Returned zkGeoPoint0 /\
  result (run (world C) (constructor zkGeoPoint0 proof0 ≫= zkGeoPoint) st)
    = Returned zkGeoPoint0.
Proof.
  intros this Hengine _.
  change proof0 with (proof this) in Hengine.
  pose proof (this_verify_returns this st Hengine) as Hv.
  assert (result (run (world C) (zkGeoPoint this) st) = Returned zkGeoPoint0)
    as Hget.
  { unfold zkGeoPoint. rewrite run_then_return. cbn [result]. by rewrite Hv. }
  split; [| split; [exact Hv | split; [exact Hget |]]].
  - by rewrite run_verify, Hengine.
  - rewrite run_bind. unfold constructor. cbn -[zkGeoPoint]. fold this.
    by rewrite Hget.
Qed.

(** C7.  Two calls of [verify()] in a row end the same way.  When they
    return, the second is answered by the cache alone: its only call is the
    lookup.  (When they throw, nothing was stored and the second call runs
    the chain again.) *)
Theorem verify_twice this st :
  let o1 := run (world C) (this_verify this) st in
  let o2 := run (world C) (this_verify this) (final o1) in
  result o2 = result o1 /\
  match result o1 with
  | Returned _ =>
      trace o2 = [Log (Cache_has this) (Returned true)] /\
      existsb is_engine_check (trace o2) = false
  | Threw _ => o2 = o1
  end.
Proof.
  intros o1 o2.
  destruct (result o1) as [[] | e] eqn:E1.
  - pose proof (this_verify_stores_success this st E1) as Hin.
    subst o2. fold o1 in Hin. by rewrite run_this_verify_hit.
  - assert (cacheKey C this ∉ st) as Hout.
    { intros Hin. subst o1. by rewrite run_this_verify_hit in E1. }
    assert (final o1 = st) as Hst.
    { subst o1. rewrite run_this_verify_miss by done.
      rewrite run_this_verify_miss in E1 by done.
      by destruct (engine_verify C (proof this)). }
    subst o2. rewrite Hst. fold o1. by rewrite E1.
Qed.

(** C8.  Once [verify()] has returned on an instance, the accessor returns
    the claimed point of that instance, whatever program has run in
    between. *)
Theorem zkGeoPoint_after_verify this st {R : Type} (between : prog R) :
  let verified := run (world C) (this_verify this) st in
  let later := final (run (world C) between (final verified)) in
  result verified = Returned tt ->
  run (world C) (zkGeoPoint this) later =
    {| result := Returned (claimedZKGeoPoint this); final := later;
       trace := [Log (Cache_has this) (Returned true)] |}.
Proof.
  intros verified later Hv.
  assert (cacheKey C this ∈ later) as Hin.
  { apply (run_keeps_cache between (final verified)).
    by apply this_verify_stores_success. }
  unfold zkGeoPoint. rewrite run_then_return.
  by rewrite run_this_verify_hit.
Qed.

End AmongCollaborators.

(** ** The scenario of the spec, run *)

Section Scenario.

Import Double.

Local Abbreviation C := collaborators.

(** The honest wrapper verifies, from an empty cache. *)
Example honest_verifies :
  run (world C) (this_verify honest) ∅ =
    {| result := Returned tt; final := {[cacheKey C honest]};
       trace := [Log (Cache_has honest) (Returned false);
                 Log (ZKLocusProof_verify honest) (Returned tt);
                 Log (ZKGeoPoint_hash (claimedZKGeoPoint honest))
                   (Returned 46906);
                 Log (Cache_add honest) (Returned tt)] |}.
Proof.
  rewrite run_this_verify_miss by set_solver.
  cbn. by rewrite (right_id_L ∅ (∪)).
Qed.

(** C2.  The proof attests the point (40, -74) and the engine accepts it;
    the wrapper claims (41, -74), whose hash differs from the commitment in
    the proof.  [verify()] returns all the same, and the accessor hands out
    the forged claim: the mismatch branch is never taken. *)
Theorem verify_returns_on_mismatch :
  geoPointHash (publicOutput (proof forged))
    <> hash C (claimedZKGeoPoint forged) /\
  engine_verify C (proof forged) = Returned tt /\
  run (world C) (verify forged) ∅ =
    {| result := Returned tt; final := ∅;
       trace := [Log (ZKLocusProof_verify forged) (Returned tt);
                 Log (ZKGeoPoint_hash (claimedZKGeoPoint forged))
                   (Returned 47266)] |} /\
  result (run (world C) (this_verify forged) ∅) = Returned tt /\
  result (run (world C) (zkGeoPoint forged) ∅)
    = Returned (claimedZKGeoPoint forged).
Proof.
  split; [by vm_compute |]. split; [reflexivity |].
  split; [by rewrite run_verify |].
  split.
  - by rewrite run_this_verify_miss by set_solver.
  - unfold zkGeoPoint. rewrite run_then_return.
    by rewrite run_this_verify_miss by set_solver.
Qed.

Lemma verify_accepts_bound_claim_witness :
  engine_verify C (proof honest) = Returned tt /\
  geoPointHash (publicOutput (proof honest))
    = hash C (claimedZKGeoPoint honest) /\
  result (run (world C) (verify honest) ∅) = Returned tt /\
  result (run (world C) (this_verify honest) ∅) = Returned tt /\
  result (run (world C) (zkGeoPoint honest) ∅)
    = Returned (claimedZKGeoPoint honest) /\
  result (run (world C)
            (constructor (claimedZKGeoPoint honest) (proof honest)
               ≫= zkGeoPoint) ∅)
    = Returned (claimedZKGeoPoint honest).
Proof.
  split; [reflexivity |]. split; [reflexivity |].
  apply (verify_accepts_bound_claim C (claimedZKGeoPoint honest)
           (proof honest) ∅); reflexivity.
Defined.

Lemma fromZKGeoPointProviderProof_verifies_source_first_witness :
  (world C _ (Provider_verify bad_source) ∅).1 = Threw (Error "invalid proof") /\
  run (world C) (fromZKGeoPointProviderProof bad_source) ∅ =
    {| result := Threw (Error "invalid proof"); final := ∅;
       trace := [Log (Provider_verify bad_source)
                   (Threw (Error "invalid proof"))] |} /\
  existsb is_transformation
    (trace (run (world C) (fromZKGeoPointProviderProof bad_source) ∅)) = false.
Proof.
  split; [reflexivity |].
  apply (proj2 (fromZKGeoPointProviderProof_verifies_source_first
                  (world C) bad_source ∅)).
  reflexivity.
Defined.

Lemma fromZKGeoPointProviderProof_returns_unverified_wrapper_witness :
  result (run (world C) (fromZKGeoPointProviderProof good_source) ∅)
    = Returned honest /\
  (exists geoPointProviderProof,
     trace (run (world C) (fromZKGeoPointProviderProof good_source) ∅) =
       [Log (Provider_verify good_source) (Returned tt);
        Log (Provider_zkGeoPoint good_source)
          (Returned (claimedZKGeoPoint honest));
        Log (Provider_zkProof good_source) (Returned geoPointProviderProof);
        Log (ExactGeoPointCircuit_fromGeoPointProvider geoPointProviderProof)
          (Returned (proof honest));
        Log ZKLocusProof_constructor (Returned tt)]) /\
  existsb is_verification
    (trace (run (world C) (fromZKGeoPointProviderProof good_source) ∅)) = false.
Proof.
  split; [reflexivity |].
  apply (fromZKGeoPointProviderProof_returns_unverified_wrapper
           (world C) good_source ∅ honest).
  reflexivity.
Defined.

Lemma assertGeoPointIsTheClaimedOne_never_throws_witness :
  world C _ (ZKGeoPoint_hash (claimedZKGeoPoint forged)) ∅
    = (Returned 47266, ∅) /\
  (forall embedded : Field, mismatch_guard embedded 47266 = false) /\
  run (world C) (assertGeoPointIsTheClaimedOne forged) ∅ =
    {| result := Returned tt; final := ∅;
       trace := [Log (ZKGeoPoint_hash (claimedZKGeoPoint forged))
                   (Returned 47266)] |}.
Proof.
  split; [reflexivity |].
  apply (assertGeoPointIsTheClaimedOne_never_throws (world C) forged ∅).
  reflexivity.
Defined.

Lemma zkGeoPoint_after_verify_witness :
  let verified := run (world C) (this_verify honest) ∅ in
  let later := final (run (world C) (zkGeoPoint rejected) (final verified)) in
  result verified = Returned tt /\
  run (world C) (zkGeoPoint honest) later =
    {| result := Returned (claimedZKGeoPoint honest); final := later;
       trace := [Log (Cache_has honest) (Returned true)] |}.
Proof.
  split; [by vm_compute |].
  apply (zkGeoPoint_after_verify C honest ∅ (zkGeoPoint rejected)).
  by vm_compute.
Defined.

Lemma verify_rethrows_witness :
  result (run (world C) (verify rejected) ∅) = Threw (Error "invalid proof") /\
  (trace (run (world C) (verify rejected) ∅)
     = [Log (ZKLocusProof_verify rejected) (Threw (Error "invalid proof"))] \/
   exists x,
     trace (run (world C) (verify rejected) ∅)
       = [Log (ZKLocusProof_verify rejected) (Returned x);
          Log (ZKGeoPoint_hash (claimedZKGeoPoint rejected))
            (Threw (Error "invalid proof"))]).
Proof.
  split; [reflexivity |].
  apply (verify_rethrows (world C) rejected ∅ (Error "invalid proof")).
  reflexivity.
Defined.

Lemma verify_returns_whatever_the_commitments_witness :
  world C _ (ZKLocusProof_verify forged) ∅ = (Returned tt, ∅) /\
  world C _ (ZKGeoPoint_hash (claimedZKGeoPoint forged)) ∅
    = (Returned 47266, ∅) /\
  run (world C) (verify forged) ∅ =
    {| result := Returned tt; final := ∅;
       trace := [Log (ZKLocusProof_verify forged) (Returned tt);
                 Log (ZKGeoPoint_hash (claimedZKGeoPoint forged))
                   (Returned 47266)] |}.
Proof.
  split; [reflexivity |]. split; [reflexivity |].
  apply (verify_returns_whatever_the_commitments (world C) forged ∅ tt ∅
           47266 ∅); reflexivity.
Defined.

Lemma fromZKGeoPointProviderProof_transforms_source_handle_witness :
  let o := run (world C) (fromZKGeoPointProviderProof good_source) ∅ in
  existsb is_transformation (trace o) = true /\
  exists zkGeoPoint0 geoPointProviderProof transformed rest,
    trace o =
      Log (Provider_verify good_source) (Returned tt)
      :: Log (Provider_zkGeoPoint good_source) (Returned zkGeoPoint0)
      :: Log (Provider_zkProof good_source) (Returned geoPointProviderProof)
      :: Log (ExactGeoPointCircuit_fromGeoPointProvider geoPointProviderProof)
           transformed
      :: rest /\
    existsb is_transformation rest = false.
Proof.
  split; [reflexivity |].
  apply (fromZKGeoPointProviderProof_transforms_source_handle
           (world C) good_source ∅).
  reflexivity.
Defined.

Lemma fromZKGeoPointProviderProof_constructs_last_witness :
  let o := run (world C) (fromZKGeoPointProviderProof good_source) ∅ in
  existsb is_construction (trace o) = true /\
  exists zkGeoPoint0 geoPointProviderProof exactGeoPointProof built,
    trace o =
      [Log (Provider_verify good_source) (Returned tt);
       Log (Provider_zkGeoPoint good_source) (Returned zkGeoPoint0);
       Log (Provider_zkProof good_source) (Returned geoPointProviderProof);
       Log (ExactGeoPointCircuit_fromGeoPointProvider geoPointProviderProof)
         (Returned exactGeoPointProof);
       Log ZKLocusProof_constructor built] /\
    result o =
      match built with
      | Returned _ =>
          Returned {| proof := exactGeoPointProof;
                      claimedZKGeoPoint := zkGeoPoint0 |}
      | Threw e => Threw e
      end.
Proof.
  split; [reflexivity |].
  apply (fromZKGeoPointProviderProof_constructs_last
           (world C) good_source ∅).
  reflexivity.
Defined.

Lemma fromZKGeoPointProviderProof_rethrows_witness :
  let o := run (world C) (fromZKGeoPointProviderProof bad_source) ∅ in
  result o = Threw (Error "invalid proof") /\
  (exists (X : Type) (c : Call X),
     last (trace o) = Some (Log c (Threw (Error "invalid proof")))) /\
  Forall (fun l => is_construction l = true ->
                   l = Log ZKLocusProof_constructor
                         (Threw (Error "invalid proof"))) (trace o).
Proof.
  split; [reflexivity |].
  apply (fromZKGeoPointProviderProof_rethrows
           (world C) bad_source ∅ (Error "invalid proof")).
  reflexivity.
Defined.

Lemma constructor_then_zkGeoPoint_witness :
  let o := run (world C)
             (constructor (claimedZKGeoPoint honest) (proof honest)
                ≫= zkGeoPoint) ∅ in
  result o = Returned (claimedZKGeoPoint honest) /\
  claimedZKGeoPoint honest = claimedZKGeoPoint honest /\
  exists st1,
    world C _ ZKLocusProof_constructor ∅ = (Returned tt, st1) /\
    result (run (world C) (this_verify honest) st1) = Returned tt /\
    trace o = Log ZKLocusProof_constructor (Returned tt)
              :: trace (run (world C) (this_verify honest) st1).
Proof.
  split; [by vm_compute |].
  apply (constructor_then_zkGeoPoint (world C) (claimedZKGeoPoint honest)
           (proof honest) ∅ (claimedZKGeoPoint honest)).
  by vm_compute.
Defined.

Lemma derived_wrapper_reads_source_claim_witness :
  let o := run (world C)
             (fromZKGeoPointProviderProof good_source ≫= zkGeoPoint) ∅ in
  result o = Returned (claimedZKGeoPoint honest) /\
  exists rest,
    trace o = Log (Provider_verify good_source) (Returned tt)
              :: Log (Provider_zkGeoPoint good_source)
                   (Returned (claimedZKGeoPoint honest))
              :: rest.
Proof.
  split; [by vm_compute |].
  apply (derived_wrapper_reads_source_claim (world C) good_source ∅
           (claimedZKGeoPoint honest)).
  by vm_compute.
Defined.

End Scenario.
